(** * The OpenCV JNI bridge ([opencv_jni.cpp])

    A shallow embedding of the two native entry points of
    [src/main/cpp/jni/opencv_jni.cpp]:

    - [Java_com_hsl_videstabilization_util_OpenCVJNI_getOpenCVVersion]
    - [Java_com_hsl_videstabilization_util_OpenCVJNI_convertToGray]

    Both are sequences of calls into code that lives outside the repository
    (OpenCV, the Android log, the JNI environment).  The embedding therefore
    has three layers:

    - the _world_ the native code runs in: the objects reachable through
      numeric handles and the trace of calls that leave the bridge;
    - the _library interface_ [OpenCV]: what the bridge needs from the linked
      vision library, taken as a parameter;
    - the two functions, written in a small state-and-exception monad that
      follows the C++ control flow statement by statement. *)

From Stdlib Require Import ZArith Ascii String List Lia.
From stdpp Require Import base gmap strings list.

Local Open Scope string_scope.
Local Open Scope list_scope.
Local Open Scope Z_scope.

(** ** Data model *)

Module Cv.

(** [cv::Mat], as far as the bridge and the conversion look at it: the
    geometry, the element type (depth and channel count) and the interleaved
    samples, row after row.  Samples of an 8-bit matrix are numbers below 256. *)
Record Mat := mkMat {
  rows : Z;
  cols : Z;
  depth : Z;
  channels : Z;
  data : list Z
}.

(** [CV_8U], the depth code of unsigned 8-bit samples. *)
Definition CV_8U : Z := 0.

(** The members of [cv::ColorConversionCodes] that turn a four-channel
    colour image into a gray one.  The bridge names exactly one of them. *)
Inductive ColorConversionCodes :=
| COLOR_BGRA2GRAY
| COLOR_RGBA2GRAY.

(** What a C++ [throw] can carry out of a library call, split the way the
    handler in [convertToGray] splits it: objects of class [cv::Exception]
    (or of a class derived from it), and objects of any other type.  Both
    carry the text that [what()] would return. *)
Inductive exception :=
| cv_Exception (what : string)
| foreign_exception (what : string).

(** The library interface.  [cvtColor src dst code] receives the source
    matrix (an [InputArray], read only) and the current destination matrix
    (an [OutputArray]) and yields the destination as the call leaves it,
    together with the exception it raised, if any.  The destination may have
    been touched before an exception is raised, so it is reported in both
    cases. *)
Record OpenCV := {
  getVersionString : string;
  cvtColor : Mat -> Mat -> ColorConversionCodes -> Mat * option exception
}.

End Cv.

Export Cv.

(** ** The world outside the bridge *)

(** Priorities of [android/log.h] used by the two logging macros. *)
Inductive android_LogPriority :=
| ANDROID_LOG_INFO
| ANDROID_LOG_ERROR.

(** Calls that leave the bridge, in the order they are made. *)
Inductive event :=
| android_log_print (prio : android_LogPriority) (tag text : string)
| call_getVersionString
| call_cvtColor (src dst : Z) (code : ColorConversionCodes)
| call_NewStringUTF (utf : string).

(** The reference the managed runtime receives from [NewStringUTF]. *)
Inductive jstring :=
| JString (utf : string).

Definition jstring_text (s : jstring) : string :=
  match s with JString utf => utf end.

(** [jboolean] and its two constants. *)
Definition jboolean := bool.
Definition JNI_TRUE : jboolean := true.
Definition JNI_FALSE : jboolean := false.

(** The state a native call runs against: the matrices that live at numeric
    addresses (owned by the caller), and the trace of outgoing calls. *)
Record world := mkWorld {
  heap : gmap Z Mat;
  trace : list event
}.

(** How a native call ends: it returns a value, an exception leaves it, or
    its behaviour is undefined (a handle that is not the address of a live
    matrix has been dereferenced). *)
Inductive result (A : Type) :=
| Returned (a : A) (w : world)
| Thrown (e : exception) (w : world)
| Undefined.

Arguments Returned {A} a w.
Arguments Thrown {A} e w.
Arguments Undefined {A}.

(** ** The monad of native code *)

Definition native (A : Type) : Type := world -> result A.

Definition ret {A} (a : A) : native A := fun w => Returned a w.

Definition bind {A B} (m : native A) (k : A -> native B) : native B :=
  fun w =>
    match m w with
    | Returned a w' => k a w'
    | Thrown e w' => Thrown e w'
    | Undefined => Undefined
    end.

Declare Scope native_scope.
Delimit Scope native_scope with native.
Notation "x <- m ;; k" := (bind m (fun x => k))
  (at level 100, m at next level, right associativity) : native_scope.
Notation "m ;;; k" := (bind m (fun _ => k))
  (at level 100, right associativity) : native_scope.

(** [try { body } catch (cv::Exception &e) { handler }]: the handler sees the
    text of a [cv::Exception]; every other way of leaving [body] is passed
    on unchanged. *)
Definition try_catch_cv_Exception {A}
    (body : native A) (handler : string -> native A) : native A :=
  fun w =>
    match body w with
    | Thrown (cv_Exception what) w' => handler what w'
    | r => r
    end.

Definition emit (e : event) : native unit :=
  fun w => Returned tt {| heap := heap w; trace := trace w ++ [e] |}.

(** [printf]-style formatting, for the one directive the bridge uses: each
    [%s] of the format is replaced by the next argument. *)
Fixpoint format (fmt : string) (args : list string) : string :=
  match fmt with
  | String "%"%char (String "s"%char rest) =>
      match args with
      | arg :: args' => arg +:+ format rest args'
      | [] => format rest []
      end
  | String c rest => String c (format rest args)
  | EmptyString => EmptyString
  end.

Definition TAG : string := "OpenCV_JNI".

(** The macros [LOGI(...)] and [LOGE(...)]. *)
Definition LOGI (fmt : string) (args : list string) : native unit :=
  emit (android_log_print ANDROID_LOG_INFO TAG (format fmt args)).
Definition LOGE (fmt : string) (args : list string) : native unit :=
  emit (android_log_print ANDROID_LOG_ERROR TAG (format fmt args)).

(** [s.c_str()], as the receiver of the pointer reads it: the characters of
    the [std::string] before its first NUL. *)
Fixpoint c_str (s : string) : string :=
  match s with
  | EmptyString => EmptyString
  | String c rest =>
      if Ascii.eqb c Ascii.zero then EmptyString else String c (c_str rest)
  end.

(** A string that holds no NUL character. *)
Fixpoint NUL_free (s : string) : bool :=
  match s with
  | EmptyString => true
  | String c rest => negb (Ascii.eqb c Ascii.zero) && NUL_free rest
  end.

(** [env->NewStringUTF(chars)]. *)
Definition NewStringUTF (chars : string) : native jstring :=
  bind (emit (call_NewStringUTF chars)) (fun _ => ret (JString chars)).

Section Bridge.

Variable lib : OpenCV.

(** [cv::getVersionString()]. *)
Definition cv_getVersionString : native string :=
  bind (emit call_getVersionString) (fun _ => ret (getVersionString lib)).

(** [cv::cvtColor(src, dst, code)] on two matrix references.  A reference
    obtained from a handle is the handle's address; the call reads both
    matrices through it and leaves the destination as the library returns
    it.  An address without a matrix makes the call undefined. *)
Definition cv_cvtColor (src dst : Z) (code : ColorConversionCodes) : native unit :=
  fun w =>
    match heap w !! src, heap w !! dst with
    | Some s, Some d =>
        let w' := {| heap := <[dst := fst (cvtColor lib s d code)]> (heap w);
                     trace := trace w ++ [call_cvtColor src dst code] |} in
        match snd (cvtColor lib s d code) with
        | None => Returned tt w'
        | Some e => Thrown e w'
        end
    | _, _ => Undefined
    end.

(** [getOpenCVVersion]: lines 14-20. *)
Definition Java_com_hsl_videstabilization_util_OpenCVJNI_getOpenCVVersion
  : native jstring :=
  (LOGI "Getting OpenCV version" [] ;;;
   version <- cv_getVersionString ;;
   LOGI "OpenCV version: %s" [c_str version] ;;;
   NewStringUTF (c_str version))%native.

(** [convertToGray]: lines 23-41. *)
Definition Java_com_hsl_videstabilization_util_OpenCVJNI_convertToGray
    (matAddrRgba matAddrGray : Z) : native jboolean :=
  try_catch_cv_Exception
    (let rgba := matAddrRgba in
     let gray := matAddrGray in
     cv_cvtColor rgba gray COLOR_RGBA2GRAY ;;;
     ret JNI_TRUE)%native
    (fun what =>
       LOGE "OpenCV error: %s" [what] ;;;
       ret JNI_FALSE)%native.

End Bridge.

Abbreviation getOpenCVVersion :=
  Java_com_hsl_videstabilization_util_OpenCVJNI_getOpenCVVersion.
Abbreviation convertToGray :=
  Java_com_hsl_videstabilization_util_OpenCVJNI_convertToGray.

(** What is left of a call once it is over. *)
Definition final_world {A} (r : result A) : option world :=
  match r with
  | Returned _ w => Some w
  | Thrown _ w => Some w
  | Undefined => None
  end.

Definition returned {A} (r : result A) : option A :=
  match r with
  | Returned a _ => Some a
  | _ => None
  end.

(** The world [convertToGray] leaves behind the conversion call, and the world
    after the handler has logged the text of a [cv::Exception]. *)
Definition converted (lib : OpenCV) (a b : Z) (src dst : Mat) (w : world) : world :=
  {| heap := <[b := fst (cvtColor lib src dst COLOR_RGBA2GRAY)]> (heap w);
     trace := trace w ++ [call_cvtColor a b COLOR_RGBA2GRAY] |}.

Definition logged_error (what : string) (w : world) : world :=
  {| heap := heap w;
     trace := trace w
              ++ [android_log_print ANDROID_LOG_ERROR TAG ("OpenCV error: " +:+ what)] |}.

(** The conversion calls recorded in a trace, with their codes. *)
Definition conversion_codes (t : list event) : list ColorConversionCodes :=
  omap (fun e => match e with call_cvtColor _ _ code => Some code | _ => None end) t.

(** The texts logged at a given priority. *)
Definition logged_at (prio : android_LogPriority) (t : list event) : list string :=
  omap (fun e =>
          match e, prio with
          | android_log_print ANDROID_LOG_INFO _ text, ANDROID_LOG_INFO => Some text
          | android_log_print ANDROID_LOG_ERROR _ text, ANDROID_LOG_ERROR => Some text
          | _, _ => None
          end) t.

(** ** Buffers and the gray transform *)

(** A pixel of a four-channel buffer: its samples in storage order. *)
Definition pixel : Type := Z * Z * Z * Z.

Fixpoint pixels4 (samples : list Z) : list pixel :=
  match samples with
  | c0 :: c1 :: c2 :: c3 :: rest => (c0, c1, c2, c3) :: pixels4 rest
  | _ => []
  end.

Definition is_sample (x : Z) : bool := (0 <=? x) && (x <? 256).

(** A validly allocated 8-bit matrix: positive geometry and as many samples
    as the geometry asks for. *)
Definition Mat_ok (m : Mat) : bool :=
  (0 <? rows m) && (0 <? cols m) && (0 <? channels m) && (depth m =? CV_8U)
  && (Z.of_nat (length (data m)) =? rows m * cols m * channels m)
  && forallb is_sample (data m).

(** A validly allocated four-channel source. *)
Definition is_rgba_buffer (src : Mat) : bool :=
  Mat_ok src && (channels src =? 4).

(** A one-channel destination allocated with the geometry of [src]; what it
    holds before the call does not matter. *)
Definition is_gray_buffer_for (src dst : Mat) : bool :=
  (depth dst =? CV_8U) && (channels dst =? 1)
  && (rows dst =? rows src) && (cols dst =? cols src)
  && (Z.of_nat (length (data dst)) =? rows dst * cols dst).

(** A luma weighting: the intensity of a red, a green and a blue sample. *)
Definition luma : Type := Z -> Z -> Z -> Z.

(** Which stored channel a conversion code takes for red, green and blue.
    The fourth channel has no weight under either code. *)
Definition gray_sample (Y : luma) (code : ColorConversionCodes) (px : pixel) : Z :=
  let '(c0, c1, c2, _) := px in
  match code with
  | COLOR_RGBA2GRAY => Y c0 c1 c2
  | COLOR_BGRA2GRAY => Y c2 c1 c0
  end.

Definition gray_image (Y : luma) (code : ColorConversionCodes) (src : Mat) : Mat :=
  {| rows := rows src;
     cols := cols src;
     depth := depth src;
     channels := 1;
     data := map (gray_sample Y code) (pixels4 (data src)) |}.

(** The part of the library's documentation the bridge relies on: on a valid
    four-channel source and a matching destination, [cvtColor] raises nothing
    and leaves the gray image of the source in the destination.  The
    weighting [Y] is the library's own. *)
Definition cvtColor_contract (lib : OpenCV) (Y : luma) : Prop :=
  forall code src dst,
    is_rgba_buffer src = true ->
    is_gray_buffer_for src dst = true ->
    cvtColor lib src dst code = (gray_image Y code src, None).

(** The colour part of a pixel, and an image stored blue first: the layout
    that [COLOR_BGRA2GRAY] is meant for. *)
Definition colour_of (px : pixel) : Z * Z * Z :=
  let '(c0, c1, c2, _) := px in (c0, c1, c2).

Fixpoint store_bgra (image : list (Z * Z * Z * Z)) : list Z :=
  match image with
  | (r, g, b, alpha) :: rest => b :: g :: r :: alpha :: store_bgra rest
  | [] => []
  end.

(** ** Library instances *)

Module Instances.

(** Fixed-point weights of the 8-bit path: 0.299, 0.587 and 0.114 scaled by
    2^15, rounded to nearest. *)
Definition Y_8u : luma :=
  fun r g b => Z.shiftr (r * 9798 + g * 19235 + b * 3735 + 16384) 15.

(** A library that behaves as OpenCV documents [cvtColor]: the source is
    checked, the destination is re-created with the geometry of the source
    whatever it was before, and the gray image is stored in it. *)
Definition documented : OpenCV :=
  {| getVersionString := "4.8.0";
     cvtColor := fun src dst code =>
       if is_rgba_buffer src
       then (gray_image Y_8u code src, None)
       else (dst, Some (cv_Exception "Invalid number of channels in input image")) |}.

(** A library whose conversion runs out of memory in a standard container:
    what leaves [cvtColor] is a [std::bad_alloc], not a [cv::Exception]. *)
Definition exhausted : OpenCV :=
  {| getVersionString := "4.8.0";
     cvtColor := fun src dst code => (dst, Some (foreign_exception "std::bad_alloc")) |}.

(** A library that checks nothing and writes nothing. *)
Definition unchecked : OpenCV :=
  {| getVersionString := "4.8.0";
     cvtColor := fun src dst code => (dst, None) |}.

(** Two pixels, red then blue, opaque, at address 16; a matching gray
    buffer at address 32; a 2x2 three-channel buffer at address 48. *)
Definition rgba_2x1 : Mat := mkMat 1 2 CV_8U 4 [255; 0; 0; 255; 0; 0; 255; 255].
Definition gray_2x1 : Mat := mkMat 1 2 CV_8U 1 [0; 0].
Definition bgr_2x2 : Mat := mkMat 2 2 CV_8U 3 [1; 2; 3; 4; 5; 6; 7; 8; 9; 10; 11; 12].

Definition caller_heap : gmap Z Mat :=
  <[16 := rgba_2x1]> (<[32 := gray_2x1]> (<[48 := bgr_2x2]> ∅)).

Definition w0 : world := {| heap := caller_heap; trace := [] |}.

(** Another caller: the same picture at another address, a destination
    with other contents, and a log that is not empty. *)
Definition gray_2x1_used : Mat := mkMat 1 2 CV_8U 1 [200; 100].

Definition elsewhere : world :=
  {| heap := <[4096 := rgba_2x1]> (<[8192 := gray_2x1_used]> ∅);
     trace := [android_log_print ANDROID_LOG_INFO TAG "Getting OpenCV version"] |}.

End Instances.

(** ** Callers *)

(** The two ways a caller can make one call of each entry point in a row,
    keeping both answers. *)
Definition conversion_then_version (lib : OpenCV) (a b : Z)
  : native (jboolean * jstring) :=
  (ok <- convertToGray lib a b ;;
   version <- getOpenCVVersion lib ;;
   ret (ok, version))%native.

Definition version_then_conversion (lib : OpenCV) (a b : Z)
  : native (jboolean * jstring) :=
  (version <- getOpenCVVersion lib ;;
   ok <- convertToGray lib a b ;;
   ret (ok, version))%native.

(** A library whose version string holds a NUL between the number and a
    suffix. *)
Definition suffixed : OpenCV :=
  {| getVersionString := "4.8" +:+ String Ascii.zero "rc";
     cvtColor := cvtColor Instances.documented |}.

(** A caller with the picture and the gray buffer of [Instances.w0] at the
    same addresses, among other matrices and with a log that is not empty. *)
Definition crowded : world :=
  {| heap := <[16 := Instances.rgba_2x1]>
               (<[32 := Instances.gray_2x1]>
                  (<[48 := Instances.gray_2x1_used]>
                     (<[64 := Instances.bgr_2x2]> ∅)));
     trace := [android_log_print ANDROID_LOG_ERROR TAG "OpenCV error: earlier";
               call_getVersionString] |}.

(** ** Formatting *)

Lemma append_empty_r (s : string) : s +:+ "" = s.
Proof.
  induction s as [| c s IH]; [reflexivity |].
  change (String c (s +:+ "") = String c s). now rewrite IH.
Qed.

(** A format that ends in its only [%s] is a prefix followed by the argument. *)
Lemma format_error_text (what : string) :
  format "OpenCV error: %s" [what] = "OpenCV error: " +:+ what.
Proof. simpl. now rewrite append_empty_r. Qed.

Lemma format_version_text (version : string) :
  format "OpenCV version: %s" [version] = "OpenCV version: " +:+ version.
Proof. simpl. now rewrite append_empty_r. Qed.

(** ** C strings *)

Lemma c_str_NUL_free (s : string) : NUL_free s = true -> c_str s = s.
Proof.
  induction s as [| c s IH]; [reflexivity |].
  cbn [NUL_free c_str]. intros H. apply andb_prop in H as [Hc Hs].
  destruct (Ascii.eqb c Ascii.zero); [discriminate |].
  now rewrite (IH Hs).
Qed.

Lemma c_str_stops_at_NUL (pre post : string) :
  NUL_free pre = true ->
  c_str (pre +:+ String Ascii.zero post) = pre.
Proof.
  induction pre as [| c pre IH]; [reflexivity |].
  cbn [NUL_free]. intros H. apply andb_prop in H as [Hc Hpre].
  change (String c pre +:+ String Ascii.zero post)
    with (String c (pre +:+ String Ascii.zero post)).
  cbn [c_str]. destruct (Ascii.eqb c Ascii.zero); [discriminate |].
  now rewrite (IH Hpre).
Qed.

(** ** How the two functions run *)

Section Semantics.

Variable lib : OpenCV.

Lemma cv_cvtColor_run a b code w src dst :
  heap w !! a = Some src ->
  heap w !! b = Some dst ->
  cv_cvtColor lib a b code w =
    let w' := {| heap := <[b := fst (cvtColor lib src dst code)]> (heap w);
                 trace := trace w ++ [call_cvtColor a b code] |} in
    match snd (cvtColor lib src dst code) with
    | None => Returned tt w'
    | Some e => Thrown e w'
    end.
Proof.
  intros Ha Hb. unfold cv_cvtColor. rewrite Ha, Hb. reflexivity.
Qed.

Lemma cv_cvtColor_dangling a b code w :
  heap w !! a = None \/ heap w !! b = None ->
  cv_cvtColor lib a b code w = Undefined.
Proof.
  unfold cv_cvtColor. intros [H | H]; rewrite H; [reflexivity |].
  destruct (heap w !! a); reflexivity.
Qed.

(** The three ways the body of [convertToGray] can end, seen from outside. *)
Lemma convertToGray_by_cases a b w :
  convertToGray lib a b w =
    match cv_cvtColor lib a b COLOR_RGBA2GRAY w with
    | Returned _ w' => Returned JNI_TRUE w'
    | Thrown (cv_Exception what) w' => Returned JNI_FALSE (logged_error what w')
    | Thrown e w' => Thrown e w'
    | Undefined => Undefined
    end.
Proof.
  unfold Java_com_hsl_videstabilization_util_OpenCVJNI_convertToGray,
    try_catch_cv_Exception, bind.
  destruct (cv_cvtColor lib a b COLOR_RGBA2GRAY w) as [[] w' | [what | what] w' |];
    try reflexivity.
  unfold LOGE, emit, ret, logged_error. now rewrite format_error_text.
Qed.

Lemma convertToGray_run a b w src dst :
  heap w !! a = Some src ->
  heap w !! b = Some dst ->
  convertToGray lib a b w =
    match snd (cvtColor lib src dst COLOR_RGBA2GRAY) with
    | None => Returned JNI_TRUE (converted lib a b src dst w)
    | Some (cv_Exception what) =>
        Returned JNI_FALSE (logged_error what (converted lib a b src dst w))
    | Some e => Thrown e (converted lib a b src dst w)
    end.
Proof.
  intros Ha Hb. rewrite convertToGray_by_cases.
  rewrite (cv_cvtColor_run _ _ _ _ _ _ Ha Hb). cbv zeta.
  destruct (snd (cvtColor lib src dst COLOR_RGBA2GRAY)) as [[what | what] |];
    reflexivity.
Qed.

Lemma convertToGray_dangling a b w :
  heap w !! a = None \/ heap w !! b = None ->
  convertToGray lib a b w = Undefined.
Proof.
  intros H. rewrite convertToGray_by_cases, (cv_cvtColor_dangling _ _ _ _ H).
  reflexivity.
Qed.

(** Whatever world a call of [convertToGray] ends in, both handles were
    addresses of matrices and the world is one of the two of
    [convertToGray_run]. *)
Lemma convertToGray_final a b w w' :
  final_world (convertToGray lib a b w) = Some w' ->
  exists src dst,
    heap w !! a = Some src /\ heap w !! b = Some dst /\
    (w' = converted lib a b src dst w \/
     exists what, w' = logged_error what (converted lib a b src dst w)).
Proof.
  destruct (heap w !! a) as [src |] eqn:Ha;
    [| rewrite convertToGray_dangling by (left; exact Ha); discriminate].
  destruct (heap w !! b) as [dst |] eqn:Hb;
    [| rewrite convertToGray_dangling by (right; exact Hb); discriminate].
  rewrite (convertToGray_run _ _ _ _ _ Ha Hb).
  intros H. exists src, dst. split; [reflexivity | split; [reflexivity |]].
  destruct (snd (cvtColor lib src dst COLOR_RGBA2GRAY)) as [[what | what] |];
    simpl in H; inversion H; eauto.
Qed.

Lemma getOpenCVVersion_run w :
  getOpenCVVersion lib w =
    Returned (JString (c_str (getVersionString lib)))
      {| heap := heap w;
         trace := trace w ++
           [android_log_print ANDROID_LOG_INFO TAG "Getting OpenCV version";
            call_getVersionString;
            android_log_print ANDROID_LOG_INFO TAG
              ("OpenCV version: " +:+ c_str (getVersionString lib));
            call_NewStringUTF (c_str (getVersionString lib))] |}.
Proof.
  unfold Java_com_hsl_videstabilization_util_OpenCVJNI_getOpenCVVersion,
    cv_getVersionString, NewStringUTF, LOGI, bind, emit, ret.
  rewrite format_version_text. cbn [heap trace].
  rewrite <- !app_assoc. reflexivity.
Qed.

End Semantics.

Lemma cv_cvtColor_trace lib a b code w (r : result unit) w' :
  cv_cvtColor lib a b code w = r ->
  final_world r = Some w' ->
  trace w' = trace w ++ [call_cvtColor a b code].
Proof.
  unfold cv_cvtColor. intros <-.
  destruct (heap w !! a) as [src |]; [| discriminate].
  destruct (heap w !! b) as [dst |]; [| discriminate].
  destruct (snd (cvtColor lib src dst code)); simpl; intros [= <-]; reflexivity.
Qed.

Lemma logged_at_app prio (t1 t2 : list event) :
  logged_at prio (t1 ++ t2) = logged_at prio t1 ++ logged_at prio t2.
Proof. unfold logged_at. apply omap_app. Qed.

(** ** The exception boundary of [convertToGray] *)

(** C1, as the code has it.  A [cv::Exception] raised by the conversion call
    is caught and turned into [JNI_FALSE], after the handler has logged it; a
    conversion call that returns makes the bridge return [JNI_TRUE] in the
    world the call left; an exception that does leave [convertToGray] is
    never a [cv::Exception]; and an exception of any other type raised by
    the conversion call is not handled: it leaves [convertToGray] as it was
    raised, in the world the conversion call left. *)
Theorem convertToGray_catches_cv_Exception (lib : OpenCV) (a b : Z) (w : world) :
  (forall what w1,
      cv_cvtColor lib a b COLOR_RGBA2GRAY w = Thrown (cv_Exception what) w1 ->
      exists w2, convertToGray lib a b w = Returned JNI_FALSE w2)
  /\ (forall w1,
      cv_cvtColor lib a b COLOR_RGBA2GRAY w = Returned tt w1 ->
      convertToGray lib a b w = Returned JNI_TRUE w1)
  /\ (forall e w2,
      convertToGray lib a b w = Thrown e w2 ->
      exists what, e = foreign_exception what)
  /\ (forall what w1,
      cv_cvtColor lib a b COLOR_RGBA2GRAY w = Thrown (foreign_exception what) w1 ->
      convertToGray lib a b w = Thrown (foreign_exception what) w1).
Proof.
  rewrite convertToGray_by_cases.
  destruct (cv_cvtColor lib a b COLOR_RGBA2GRAY w) as [[] w' | [what | what] w' |];
    (split; [| split; [| split]]); intros; try discriminate; eauto;
    try congruence.
  match goal with H : Thrown _ _ = Thrown _ _ |- _ => inversion H end. eauto.
Qed.

(** C1 as the specification words it ("any exception ... is caught") does
    not hold: the conversion call of the library [exhausted] raises an
    exception, and [convertToGray] neither returns [JNI_FALSE] nor returns at
    all: the exception leaves it. *)
Lemma foreign_exception_leaves_convertToGray :
  let w1 := converted Instances.exhausted 16 32 Instances.rgba_2x1 Instances.gray_2x1 Instances.w0 in
  cv_cvtColor Instances.exhausted 16 32 COLOR_RGBA2GRAY Instances.w0
    = Thrown (foreign_exception "std::bad_alloc") w1
  /\ convertToGray Instances.exhausted 16 32 Instances.w0
    = Thrown (foreign_exception "std::bad_alloc") w1
  /\ returned (convertToGray Instances.exhausted 16 32 Instances.w0) = None.
Proof. repeat split. Qed.

Lemma convertToGray_catches_cv_Exception_witness :
  (exists w2,
      convertToGray Instances.documented 32 16 Instances.w0 = Returned JNI_FALSE w2)
  /\ convertToGray Instances.exhausted 32 16 Instances.w0
     = Thrown (foreign_exception "std::bad_alloc")
         (converted Instances.exhausted 32 16 Instances.gray_2x1 Instances.rgba_2x1
            Instances.w0).
Proof.
  split.
  - destruct (convertToGray_catches_cv_Exception Instances.documented 32 16 Instances.w0)
      as [H _].
    apply (H "Invalid number of channels in input image"
             (converted Instances.documented 32 16 Instances.gray_2x1 Instances.rgba_2x1
                Instances.w0)).
    reflexivity.
  - destruct (convertToGray_catches_cv_Exception Instances.exhausted 32 16 Instances.w0)
      as (_ & _ & _ & H).
    apply H. reflexivity.
Defined.

(** C7.  When the conversion call raises a [cv::Exception], [convertToGray]
    returns [JNI_FALSE] and has added one entry to the log: at error
    priority, under the bridge's tag, with the text of the exception after the
    fixed prefix.  Nothing is logged at informational priority, and the text
    is not part of what the caller receives. *)
Theorem convertToGray_logs_cv_Exception
    (lib : OpenCV) (a b : Z) (w : world) (what : string) (w1 : world) :
  cv_cvtColor lib a b COLOR_RGBA2GRAY w = Thrown (cv_Exception what) w1 ->
  exists w2 text,
    convertToGray lib a b w = Returned JNI_FALSE w2 /\
    text = "OpenCV error: " +:+ what /\
    trace w2 = trace w ++ [call_cvtColor a b COLOR_RGBA2GRAY;
                           android_log_print ANDROID_LOG_ERROR TAG text] /\
    logged_at ANDROID_LOG_ERROR (trace w2)
      = logged_at ANDROID_LOG_ERROR (trace w) ++ [text] /\
    logged_at ANDROID_LOG_INFO (trace w2) = logged_at ANDROID_LOG_INFO (trace w) /\
    heap w2 = heap w1.
Proof.
  intros Hcall.
  pose proof (cv_cvtColor_trace _ _ _ _ _ _ w1 Hcall eq_refl) as Ht.
  exists (logged_error what w1), ("OpenCV error: " +:+ what).
  rewrite convertToGray_by_cases, Hcall.
  assert (Htrace : trace (logged_error what w1)
                   = trace w ++ [call_cvtColor a b COLOR_RGBA2GRAY;
                                 android_log_print ANDROID_LOG_ERROR TAG
                                   ("OpenCV error: " +:+ what)]).
  { unfold logged_error. cbn [trace]. rewrite Ht, <- app_assoc. reflexivity. }
  repeat split; try assumption.
  - rewrite Htrace, logged_at_app. reflexivity.
  - rewrite Htrace, logged_at_app. cbn. now rewrite app_nil_r.
Qed.

Lemma convertToGray_logs_cv_Exception_witness :
  exists w2 text,
    convertToGray Instances.documented 32 16 Instances.w0 = Returned JNI_FALSE w2 /\
    text = "OpenCV error: " +:+ "Invalid number of channels in input image" /\
    trace w2 = trace Instances.w0
               ++ [call_cvtColor 32 16 COLOR_RGBA2GRAY;
                   android_log_print ANDROID_LOG_ERROR TAG text] /\
    logged_at ANDROID_LOG_ERROR (trace w2)
      = logged_at ANDROID_LOG_ERROR (trace Instances.w0) ++ [text] /\
    logged_at ANDROID_LOG_INFO (trace w2)
      = logged_at ANDROID_LOG_INFO (trace Instances.w0) /\
    heap w2 = heap (converted Instances.documented 32 16 Instances.gray_2x1
                      Instances.rgba_2x1 Instances.w0).
Proof.
  apply (convertToGray_logs_cv_Exception Instances.documented 32 16 Instances.w0).
  reflexivity.
Defined.

(** ** The version query *)

(** C8.  [getOpenCVVersion] has no parameter besides the linked library.  For
    a library whose version string holds no NUL character (the bridge hands
    the string on through [c_str()]), every call returns, and what it returns
    is the library's version string.  On the way it makes four outgoing
    calls in this order: an informational log entry, the library's version
    query, a second informational log entry (which shows the version), and
    the conversion to a managed string.  The matrices of the caller are left
    alone. *)
Theorem getOpenCVVersion_logs_around_query (lib : OpenCV) (w : world) :
  NUL_free (getVersionString lib) = true ->
  exists w',
    getOpenCVVersion lib w = Returned (JString (getVersionString lib)) w' /\
    trace w' = trace w ++
      [android_log_print ANDROID_LOG_INFO TAG "Getting OpenCV version";
       call_getVersionString;
       android_log_print ANDROID_LOG_INFO TAG
         ("OpenCV version: " +:+ getVersionString lib);
       call_NewStringUTF (getVersionString lib)] /\
    logged_at ANDROID_LOG_INFO (trace w')
      = logged_at ANDROID_LOG_INFO (trace w)
        ++ ["Getting OpenCV version"; "OpenCV version: " +:+ getVersionString lib] /\
    logged_at ANDROID_LOG_ERROR (trace w') = logged_at ANDROID_LOG_ERROR (trace w) /\
    heap w' = heap w.
Proof.
  intros Hversion.
  rewrite getOpenCVVersion_run, (c_str_NUL_free _ Hversion).
  eexists. split; [reflexivity |]. cbn [trace heap].
  repeat split.
  - rewrite logged_at_app. reflexivity.
  - rewrite logged_at_app. cbn. now rewrite app_nil_r.
Qed.

Lemma getOpenCVVersion_logs_around_query_witness :
  exists w',
    getOpenCVVersion Instances.documented crowded = Returned (JString "4.8.0") w' /\
    trace w' = trace crowded ++
      [android_log_print ANDROID_LOG_INFO TAG "Getting OpenCV version";
       call_getVersionString;
       android_log_print ANDROID_LOG_INFO TAG "OpenCV version: 4.8.0";
       call_NewStringUTF "4.8.0"] /\
    logged_at ANDROID_LOG_INFO (trace w')
      = logged_at ANDROID_LOG_INFO (trace crowded)
        ++ ["Getting OpenCV version"; "OpenCV version: 4.8.0"] /\
    logged_at ANDROID_LOG_ERROR (trace w') = logged_at ANDROID_LOG_ERROR (trace crowded) /\
    heap w' = heap crowded.
Proof.
  apply (getOpenCVVersion_logs_around_query Instances.documented crowded).
  reflexivity.
Defined.

(** C5.  For a library whose version string, read through [c_str()] as the
    bridge reads it, is not empty, a call of [getOpenCVVersion] returns a
    string that is not empty; a second call, made in the world the first one
    left, returns the same string; and neither call changes a matrix of the
    caller: the log is all they write to. *)
Theorem getOpenCVVersion_idempotent (lib : OpenCV) (w : world) :
  (0 < String.length (c_str (getVersionString lib)))%nat ->
  exists s w1 w2,
    getOpenCVVersion lib w = Returned s w1 /\
    getOpenCVVersion lib w1 = Returned s w2 /\
    (0 < String.length (jstring_text s))%nat /\
    heap w1 = heap w /\
    heap w2 = heap w.
Proof.
  intros Hlen.
  eexists _, _, _. rewrite !getOpenCVVersion_run.
  repeat split. exact Hlen.
Qed.

Lemma getOpenCVVersion_idempotent_witness :
  exists s w1 w2,
    getOpenCVVersion Instances.documented Instances.w0 = Returned s w1 /\
    getOpenCVVersion Instances.documented w1 = Returned s w2 /\
    (0 < String.length (jstring_text s))%nat /\
    heap w1 = heap Instances.w0 /\
    heap w2 = heap Instances.w0.
Proof.
  apply (getOpenCVVersion_idempotent Instances.documented Instances.w0).
  simpl. lia.
Defined.

(** ** What [convertToGray] touches *)

(** C9.  When the two handles differ, a call of [convertToGray] that ends
    (with [JNI_TRUE], with [JNI_FALSE], or by an exception that leaves it)
    ends in a world where the matrix behind the source handle is the one that
    was there before; in fact every address other than the destination handle
    holds what it held, and the trace has only grown. *)
Theorem convertToGray_preserves_source (lib : OpenCV) (a b : Z) (w w' : world) :
  a <> b ->
  final_world (convertToGray lib a b w) = Some w' ->
  heap w' !! a = heap w !! a /\
  (forall c, c <> b -> heap w' !! c = heap w !! c) /\
  exists new, trace w' = trace w ++ new.
Proof.
  intros Hab Hend.
  destruct (convertToGray_final _ _ _ _ _ Hend)
    as (src & dst & _ & _ & [-> | [what ->]]);
    unfold logged_error, converted; cbn [heap trace].
  - split; [| split].
    + apply lookup_insert_ne. congruence.
    + intros c Hc. apply lookup_insert_ne. congruence.
    + eauto.
  - split; [| split].
    + apply lookup_insert_ne. congruence.
    + intros c Hc. apply lookup_insert_ne. congruence.
    + rewrite <- app_assoc. eauto.
Qed.

Lemma convertToGray_preserves_source_witness :
  let w' := converted Instances.documented 16 32 Instances.rgba_2x1 Instances.gray_2x1
              Instances.w0 in
  heap w' !! 16 = heap Instances.w0 !! 16 /\
  (forall c, c <> 32 -> heap w' !! c = heap Instances.w0 !! c) /\
  exists new, trace w' = trace Instances.w0 ++ new.
Proof.
  apply (convertToGray_preserves_source Instances.documented 16 32 Instances.w0).
  - lia.
  - reflexivity.
Defined.

(** C6.  [convertToGray] checks nothing before it calls the library.  A
    handle that is not the address of a matrix is dereferenced all the same,
    and the call is undefined.  When both handles are addresses of matrices
    (whatever their channel counts and sizes, and also when the two handles
    are one and the same) the library is called on these two matrices with
    the gray code, the destination is left as the library left it, and the
    answer is decided by the library alone: [JNI_TRUE] exactly when it raised
    nothing, [JNI_FALSE] exactly when it raised a [cv::Exception]. *)
Theorem convertToGray_validates_nothing (lib : OpenCV) (a b : Z) (w : world) :
  (heap w !! a = None \/ heap w !! b = None ->
   convertToGray lib a b w = Undefined)
  /\ (forall src dst,
      heap w !! a = Some src ->
      heap w !! b = Some dst ->
      exists w',
        final_world (convertToGray lib a b w) = Some w' /\
        heap w' = <[b := fst (cvtColor lib src dst COLOR_RGBA2GRAY)]> (heap w) /\
        (exists rest, trace w' = trace w ++ call_cvtColor a b COLOR_RGBA2GRAY :: rest) /\
        (returned (convertToGray lib a b w) = Some JNI_TRUE
         <-> snd (cvtColor lib src dst COLOR_RGBA2GRAY) = None) /\
        (returned (convertToGray lib a b w) = Some JNI_FALSE
         <-> exists what,
             snd (cvtColor lib src dst COLOR_RGBA2GRAY) = Some (cv_Exception what))).
Proof.
  split; [apply convertToGray_dangling |].
  intros src dst Ha Hb. rewrite (convertToGray_run lib a b w src dst Ha Hb).
  destruct (snd (cvtColor lib src dst COLOR_RGBA2GRAY)) as [[what | what] |];
    eexists; (split; [reflexivity |]); cbn [heap trace converted logged_error returned];
    (split; [reflexivity |]); (split; [rewrite <- ?app_assoc; eauto |]);
    split; split; intros H; try discriminate; try reflexivity; eauto.
  - destruct H; discriminate.
  - destruct H; discriminate.
Qed.

Lemma convertToGray_validates_nothing_witness :
  convertToGray Instances.documented 0 32 Instances.w0 = Undefined
  /\ returned (convertToGray Instances.unchecked 16 16 Instances.w0) = Some JNI_TRUE
  /\ returned (convertToGray Instances.unchecked 32 48 Instances.w0) = Some JNI_TRUE.
Proof.
  split; [| split].
  - apply (convertToGray_validates_nothing Instances.documented 0 32 Instances.w0).
    left. reflexivity.
  - destruct (convertToGray_validates_nothing Instances.unchecked 16 16 Instances.w0)
      as [_ H].
    destruct (H Instances.rgba_2x1 Instances.rgba_2x1 eq_refl eq_refl)
      as (w' & _ & _ & _ & Htrue & _).
    apply Htrue. reflexivity.
  - destruct (convertToGray_validates_nothing Instances.unchecked 32 48 Instances.w0)
      as [_ H].
    destruct (H Instances.gray_2x1 Instances.bgr_2x2 eq_refl eq_refl)
      as (w' & _ & _ & _ & Htrue & _).
    apply Htrue. reflexivity.
Defined.

(** C3, as the code has it.  With a destination that does not match the
    source in geometry or in channel count, [convertToGray] returns
    [JNI_FALSE] exactly when the library's conversion raises a
    [cv::Exception] on that pair of matrices; the bridge compares nothing
    itself. *)
Theorem convertToGray_false_iff_library_raises
    (lib : OpenCV) (a b : Z) (w : world) (src dst : Mat) :
  heap w !! a = Some src ->
  heap w !! b = Some dst ->
  is_gray_buffer_for src dst = false ->
  (exists w', convertToGray lib a b w = Returned JNI_FALSE w')
  <-> exists what, snd (cvtColor lib src dst COLOR_RGBA2GRAY) = Some (cv_Exception what).
Proof.
  intros Ha Hb _. rewrite (convertToGray_run lib a b w src dst Ha Hb).
  destruct (snd (cvtColor lib src dst COLOR_RGBA2GRAY)) as [[what | what] |];
    split; intros [x H]; try discriminate; eauto.
Qed.

(** C3 as the specification words it (a mismatched destination "yields
    false") does not hold: with the library [documented], a destination of
    another geometry and another channel count is re-created by the
    conversion, and [convertToGray] returns [JNI_TRUE]. *)
Lemma mismatched_destination_returns_true :
  heap Instances.w0 !! 16 = Some Instances.rgba_2x1
  /\ heap Instances.w0 !! 48 = Some Instances.bgr_2x2
  /\ is_rgba_buffer Instances.rgba_2x1 = true
  /\ is_gray_buffer_for Instances.rgba_2x1 Instances.bgr_2x2 = false
  /\ returned (convertToGray Instances.documented 16 48 Instances.w0) = Some JNI_TRUE.
Proof. repeat split. Qed.

Lemma convertToGray_false_iff_library_raises_witness :
  (exists w', convertToGray Instances.documented 32 48 Instances.w0 = Returned JNI_FALSE w')
  <-> exists what,
      snd (cvtColor Instances.documented Instances.gray_2x1 Instances.bgr_2x2
             COLOR_RGBA2GRAY) = Some (cv_Exception what).
Proof.
  apply (convertToGray_false_iff_library_raises Instances.documented 32 48 Instances.w0);
    reflexivity.
Defined.

(** ** Buffers *)

Ltac bool_facts :=
  repeat match goal with
    | H : (_ && _)%bool = true |- _ => apply andb_prop in H; destruct H
    | H : (_ =? _) = true |- _ => apply Z.eqb_eq in H
    | H : (_ <? _) = true |- _ => apply Z.ltb_lt in H
    end.

Lemma pixels4_length (n : nat) (samples : list Z) :
  length samples = (4 * n)%nat -> length (pixels4 samples) = n.
Proof.
  revert samples. induction n as [| n IH]; intros samples Hlen.
  - destruct samples; [reflexivity | discriminate].
  - destruct samples as [| c0 [| c1 [| c2 [| c3 rest]]]]; simpl in Hlen; try lia.
    simpl. f_equal. apply IH. lia.
Qed.

Lemma pixels4_store_bgra (image : list (Z * Z * Z * Z)) :
  pixels4 (store_bgra image)
  = map (fun px => let '(r, g, b, alpha) := px in (b, g, r, alpha)) image.
Proof.
  induction image as [| [[[r g] b] alpha] rest IH]; [reflexivity |].
  simpl. now rewrite IH.
Qed.

(** The gray image of a valid source is a matching destination. *)
Lemma gray_image_fits (Y : luma) (code : ColorConversionCodes) (src : Mat) :
  is_rgba_buffer src = true ->
  is_gray_buffer_for src (gray_image Y code src) = true.
Proof.
  unfold is_rgba_buffer, Mat_ok. intros H. bool_facts.
  unfold is_gray_buffer_for, gray_image. cbn [depth channels rows cols data].
  rewrite !Z.eqb_refl.
  repeat (apply andb_true_intro; split); try reflexivity; try (apply Z.eqb_eq; assumption).
  apply Z.eqb_eq. rewrite length_map.
  rewrite (pixels4_length (Z.to_nat (rows src * cols src))); nia.
Qed.

(** A source and a destination that are both valid are two matrices. *)
Lemma rgba_and_gray_differ (heap0 : gmap Z Mat) (a b : Z) (src dst : Mat) :
  heap0 !! a = Some src ->
  heap0 !! b = Some dst ->
  is_rgba_buffer src = true ->
  is_gray_buffer_for src dst = true ->
  a <> b.
Proof.
  intros Ha Hb Hsrc Hdst ->. rewrite Ha in Hb. injection Hb as ->.
  unfold is_rgba_buffer in Hsrc. unfold is_gray_buffer_for in Hdst. bool_facts. lia.
Qed.

(** The fourth channel has no part in a gray sample. *)
Lemma gray_sample_colour (Y : luma) (code : ColorConversionCodes) (px px' : pixel) :
  colour_of px = colour_of px' ->
  gray_sample Y code px = gray_sample Y code px'.
Proof.
  destruct px as [[[c0 c1] c2] c3], px' as [[[c0' c1'] c2'] c3'].
  simpl. intros [= -> -> ->]. reflexivity.
Qed.

Lemma gray_samples_colour (Y : luma) (code : ColorConversionCodes) (pxs pxs' : list pixel) :
  map colour_of pxs = map colour_of pxs' ->
  map (gray_sample Y code) pxs = map (gray_sample Y code) pxs'.
Proof.
  revert pxs'. induction pxs as [| px pxs IH]; intros [| px' pxs'] H;
    try discriminate; [reflexivity |].
  simpl in H. injection H as Hpx Hrest. simpl.
  rewrite (gray_sample_colour Y code px px' Hpx). f_equal. now apply IH.
Qed.

Lemma documented_contract : cvtColor_contract Instances.documented Instances.Y_8u.
Proof.
  intros code src dst Hsrc _. cbn [cvtColor Instances.documented]. now rewrite Hsrc.
Qed.

(** ** The conversion, for a library that keeps its contract *)

Section Contract.

Variable lib : OpenCV.
Variable Y : luma.
Hypothesis lib_ok : cvtColor_contract lib Y.

Lemma convertToGray_valid a b w src dst :
  heap w !! a = Some src ->
  heap w !! b = Some dst ->
  is_rgba_buffer src = true ->
  is_gray_buffer_for src dst = true ->
  convertToGray lib a b w = Returned JNI_TRUE (converted lib a b src dst w)
  /\ heap (converted lib a b src dst w) !! b = Some (gray_image Y COLOR_RGBA2GRAY src)
  /\ heap (converted lib a b src dst w) !! a = Some src.
Proof.
  intros Ha Hb Hsrc Hdst.
  pose proof (rgba_and_gray_differ _ _ _ _ _ Ha Hb Hsrc Hdst) as Hab.
  rewrite (convertToGray_run lib a b w src dst Ha Hb).
  unfold converted. cbn [heap].
  rewrite (lib_ok COLOR_RGBA2GRAY src dst Hsrc Hdst). cbn [fst snd].
  split; [reflexivity | split].
  - apply lookup_insert_eq.
  - rewrite lookup_insert_ne by congruence. exact Ha.
Qed.

(** C2.  For a validly allocated four-channel source and a one-channel
    destination of the same geometry, [convertToGray] returns [JNI_TRUE],
    and afterwards the destination handle holds the gray image of the
    source: one sample per source pixel, the library's weighting of that
    pixel. *)
Theorem convertToGray_stores_gray_image a b w src dst :
  heap w !! a = Some src ->
  heap w !! b = Some dst ->
  is_rgba_buffer src = true ->
  is_gray_buffer_for src dst = true ->
  exists w',
    convertToGray lib a b w = Returned JNI_TRUE w' /\
    heap w' !! b = Some (gray_image Y COLOR_RGBA2GRAY src).
Proof.
  intros Ha Hb Hsrc Hdst.
  destruct (convertToGray_valid a b w src dst Ha Hb Hsrc Hdst) as (Hrun & Hb' & _).
  eauto.
Qed.

(** C4.  The destination contents after a successful conversion are a
    function of the source contents alone.  Two calls on sources with the
    same contents end with the same destination contents, whatever the
    handles, the earlier contents of the destinations, the other matrices
    and the traces of the two worlds are.  In particular a second call made
    right after the first, with the same handles, leaves the destination as
    the first call left it. *)
Theorem convertToGray_deterministic a1 b1 w1 a2 b2 w2 src d1 d2 :
  heap w1 !! a1 = Some src ->
  heap w1 !! b1 = Some d1 ->
  heap w2 !! a2 = Some src ->
  heap w2 !! b2 = Some d2 ->
  is_rgba_buffer src = true ->
  is_gray_buffer_for src d1 = true ->
  is_gray_buffer_for src d2 = true ->
  (exists w1' w2' g,
      convertToGray lib a1 b1 w1 = Returned JNI_TRUE w1' /\
      convertToGray lib a2 b2 w2 = Returned JNI_TRUE w2' /\
      heap w1' !! b1 = Some g /\
      heap w2' !! b2 = Some g)
  /\ (exists w1' w1'' g,
      convertToGray lib a1 b1 w1 = Returned JNI_TRUE w1' /\
      convertToGray lib a1 b1 w1' = Returned JNI_TRUE w1'' /\
      heap w1' !! b1 = Some g /\
      heap w1'' !! b1 = Some g).
Proof.
  intros Ha1 Hb1 Ha2 Hb2 Hsrc Hd1 Hd2.
  destruct (convertToGray_valid a1 b1 w1 src d1 Ha1 Hb1 Hsrc Hd1) as (Hrun1 & Hg1 & Hs1).
  destruct (convertToGray_valid a2 b2 w2 src d2 Ha2 Hb2 Hsrc Hd2) as (Hrun2 & Hg2 & _).
  split.
  - eauto 10.
  - destruct (convertToGray_valid a1 b1 _ src _ Hs1 Hg1 Hsrc
                (gray_image_fits Y COLOR_RGBA2GRAY src Hsrc)) as (Hrun3 & Hg3 & _).
    eauto 10.
Qed.

(** C10.  The conversion code is a constant of the bridge: whatever the
    library, the handles and the matrices, a call that ends has made one
    conversion call, with [COLOR_RGBA2GRAY].  For a valid source the stored
    sample of each pixel is therefore the weighting of its first, second
    and third channel as red, green and blue; the fourth channel takes no
    part, so sources that agree on the three colour channels give the same
    gray image; and a source that stores its pixels blue first is accepted
    ([JNI_TRUE]) and gets the red weight on its blue samples and the blue
    weight on its red samples. *)
Theorem convertToGray_fixed_RGBA_order :
  (forall lib' a b w w',
      final_world (convertToGray lib' a b w) = Some w' ->
      exists new, trace w' = trace w ++ new /\
                  conversion_codes new = [COLOR_RGBA2GRAY])
  /\ (forall a b w src dst,
      heap w !! a = Some src ->
      heap w !! b = Some dst ->
      is_rgba_buffer src = true ->
      is_gray_buffer_for src dst = true ->
      exists w' g,
        convertToGray lib a b w = Returned JNI_TRUE w' /\
        heap w' !! b = Some g /\
        data g = map (fun px => let '(c0, c1, c2, _) := px in Y c0 c1 c2)
                     (pixels4 (data src)) /\
        (forall src',
            map colour_of (pixels4 (data src')) = map colour_of (pixels4 (data src)) ->
            data (gray_image Y COLOR_RGBA2GRAY src') = data g) /\
        (forall image,
            data src = store_bgra image ->
            data g = map (fun px => let '(r, g, b, _) := px in Y b g r) image)).
Proof.
  split.
  - intros lib' a b w w' Hend.
    destruct (convertToGray_final _ _ _ _ _ Hend)
      as (src & dst & _ & _ & [-> | [what ->]]);
      unfold logged_error, converted; cbn [trace].
    + eexists. split; reflexivity.
    + rewrite <- app_assoc. eexists. split; reflexivity.
  - intros a b w src dst Ha Hb Hsrc Hdst.
    destruct (convertToGray_valid a b w src dst Ha Hb Hsrc Hdst) as (Hrun & Hg & _).
    exists (converted lib a b src dst w), (gray_image Y COLOR_RGBA2GRAY src).
    split; [exact Hrun | split; [exact Hg |]].
    cbn [data gray_image]. split; [| split].
    + apply map_ext. intros [[[c0 c1] c2] c3]. reflexivity.
    + intros src' Hcolour. now apply gray_samples_colour.
    + intros image Himage. rewrite Himage, pixels4_store_bgra, map_map.
      apply map_ext. intros [[[r0 g0] b0] alpha]. reflexivity.
Qed.

End Contract.

Lemma convertToGray_stores_gray_image_witness :
  exists w',
    convertToGray Instances.documented 16 32 Instances.w0 = Returned JNI_TRUE w' /\
    heap w' !! 32
    = Some (gray_image Instances.Y_8u COLOR_RGBA2GRAY Instances.rgba_2x1).
Proof.
  apply (convertToGray_stores_gray_image Instances.documented Instances.Y_8u
           documented_contract 16 32 Instances.w0 Instances.rgba_2x1 Instances.gray_2x1);
    reflexivity.
Defined.

Lemma convertToGray_deterministic_witness :
  (exists w1' w2' g,
      convertToGray Instances.documented 16 32 Instances.w0 = Returned JNI_TRUE w1' /\
      convertToGray Instances.documented 4096 8192 Instances.elsewhere
        = Returned JNI_TRUE w2' /\
      heap w1' !! 32 = Some g /\
      heap w2' !! 8192 = Some g)
  /\ (exists w1' w1'' g,
      convertToGray Instances.documented 16 32 Instances.w0 = Returned JNI_TRUE w1' /\
      convertToGray Instances.documented 16 32 w1' = Returned JNI_TRUE w1'' /\
      heap w1' !! 32 = Some g /\
      heap w1'' !! 32 = Some g).
Proof.
  apply (convertToGray_deterministic Instances.documented Instances.Y_8u
           documented_contract 16 32 Instances.w0 4096 8192 Instances.elsewhere
           Instances.rgba_2x1 Instances.gray_2x1 Instances.gray_2x1_used);
    reflexivity.
Defined.

(** The picture at address 16 read as stored blue first is a blue pixel and
    then a red one; the gray image gets 76 and 29, the intensities of red and
    of blue. *)
Lemma convertToGray_fixed_RGBA_order_witness :
  exists w' g,
    convertToGray Instances.documented 16 32 Instances.w0 = Returned JNI_TRUE w' /\
    heap w' !! 32 = Some g /\
    data g = [76; 29] /\
    data g = map (fun px => let '(r, g, b, _) := px in Instances.Y_8u b g r)
                 [(0, 0, 255, 255); (255, 0, 0, 255)].
Proof.
  destruct (convertToGray_fixed_RGBA_order Instances.documented Instances.Y_8u
              documented_contract) as [_ H].
  destruct (H 16 32 Instances.w0 Instances.rgba_2x1 Instances.gray_2x1
              eq_refl eq_refl eq_refl eq_refl)
    as (w' & g & Hrun & Hg & Hdata & _ & Hbgra).
  exists w', g. split; [exact Hrun | split; [exact Hg | split]].
  - rewrite Hdata. reflexivity.
  - apply Hbgra. reflexivity.
Defined.

(** ** Further properties of the two entry points *)

(** X1.  One handle passed as source and as destination: the matrix behind
    it is read as the source and then replaced by what the library left in
    the destination, so the picture that was there is gone unless the
    library kept it.  Every other address holds what it held. *)
Theorem convertToGray_same_handle_overwrites
    (lib : OpenCV) (a : Z) (w w' : world) (src : Mat) :
  heap w !! a = Some src ->
  final_world (convertToGray lib a a w) = Some w' ->
  heap w' !! a = Some (fst (cvtColor lib src src COLOR_RGBA2GRAY))
  /\ (forall c, c <> a -> heap w' !! c = heap w !! c).
Proof.
  intros Ha Hend.
  destruct (convertToGray_final lib a a w w' Hend)
    as (src' & dst & Ha' & Hb' & Hw').
  rewrite Ha in Ha', Hb'. injection Ha' as <-. injection Hb' as <-.
  destruct Hw' as [-> | [what ->]]; unfold logged_error, converted; cbn [heap];
    (split; [apply lookup_insert_eq |]);
    intros c Hc; apply lookup_insert_ne; congruence.
Qed.

Lemma convertToGray_same_handle_overwrites_witness :
  let w' := converted Instances.documented 16 16 Instances.rgba_2x1 Instances.rgba_2x1
              Instances.w0 in
  heap w' !! 16 = Some (mkMat 1 2 CV_8U 1 [76; 29])
  /\ (forall c, c <> 16 -> heap w' !! c = heap Instances.w0 !! c).
Proof.
  apply (convertToGray_same_handle_overwrites Instances.documented 16 Instances.w0 _
           Instances.rgba_2x1); reflexivity.
Defined.

(** X2.  What [convertToGray] writes to the log, by the way it ends.  It
    never logs at informational priority.  When it returns [JNI_FALSE] the
    error log has grown by exactly one entry, the fixed prefix followed by a
    text; when it returns [JNI_TRUE], or an exception leaves it, the error
    log is as it was: success is silent, and so is a failure the handler does
    not catch. *)
Theorem convertToGray_log_by_outcome (lib : OpenCV) (a b : Z) (w w' : world) :
  final_world (convertToGray lib a b w) = Some w' ->
  logged_at ANDROID_LOG_INFO (trace w') = logged_at ANDROID_LOG_INFO (trace w)
  /\ (returned (convertToGray lib a b w) = Some JNI_FALSE ->
      exists what,
        logged_at ANDROID_LOG_ERROR (trace w')
        = logged_at ANDROID_LOG_ERROR (trace w) ++ ["OpenCV error: " +:+ what])
  /\ (returned (convertToGray lib a b w) <> Some JNI_FALSE ->
      logged_at ANDROID_LOG_ERROR (trace w') = logged_at ANDROID_LOG_ERROR (trace w)).
Proof.
  destruct (heap w !! a) as [src |] eqn:Ha;
    [| rewrite (convertToGray_dangling lib a b w) by (left; exact Ha); discriminate].
  destruct (heap w !! b) as [dst |] eqn:Hb;
    [| rewrite (convertToGray_dangling lib a b w) by (right; exact Hb); discriminate].
  rewrite (convertToGray_run lib a b w src dst Ha Hb).
  destruct (snd (cvtColor lib src dst COLOR_RGBA2GRAY)) as [[what | what] |];
    cbn [final_world returned]; intros [= <-];
    unfold logged_error, converted; cbn [trace];
    rewrite ?logged_at_app; cbn; rewrite ?app_nil_r;
    (split; [reflexivity | split]); intros H;
    try discriminate; try reflexivity; eauto.
  now destruct H.
Qed.

Lemma convertToGray_log_by_outcome_witness :
  let w' := logged_error "Invalid number of channels in input image"
              (converted Instances.documented 32 16 Instances.gray_2x1
                 Instances.rgba_2x1 crowded) in
  logged_at ANDROID_LOG_INFO (trace w') = logged_at ANDROID_LOG_INFO (trace crowded)
  /\ (returned (convertToGray Instances.documented 32 16 crowded) = Some JNI_FALSE ->
      exists what,
        logged_at ANDROID_LOG_ERROR (trace w')
        = logged_at ANDROID_LOG_ERROR (trace crowded) ++ ["OpenCV error: " +:+ what])
  /\ (returned (convertToGray Instances.documented 32 16 crowded) <> Some JNI_FALSE ->
      logged_at ANDROID_LOG_ERROR (trace w') = logged_at ANDROID_LOG_ERROR (trace crowded)).
Proof.
  apply (convertToGray_log_by_outcome Instances.documented 32 16 crowded).
  reflexivity.
Defined.

(** X3.  [convertToGray] looks at the two matrices behind its handles and at
    nothing else: in two worlds that agree at the two addresses (and may
    differ in every other matrix and in what was logged) it gives the same
    answer, ends the same way, and leaves the same matrix behind the
    destination handle. *)
Theorem convertToGray_local (lib : OpenCV) (a b : Z) (w1 w2 : world) :
  heap w1 !! a = heap w2 !! a ->
  heap w1 !! b = heap w2 !! b ->
  returned (convertToGray lib a b w1) = returned (convertToGray lib a b w2)
  /\ (fun w' => heap w' !! b) <$> final_world (convertToGray lib a b w1)
     = (fun w' => heap w' !! b) <$> final_world (convertToGray lib a b w2).
Proof.
  intros Ha Hb.
  destruct (heap w2 !! a) as [src |] eqn:Ha2.
  2: { rewrite (convertToGray_dangling lib a b w1) by (left; exact Ha).
       rewrite (convertToGray_dangling lib a b w2) by (left; exact Ha2).
       split; reflexivity. }
  destruct (heap w2 !! b) as [dst |] eqn:Hb2.
  2: { rewrite (convertToGray_dangling lib a b w1) by (right; exact Hb).
       rewrite (convertToGray_dangling lib a b w2) by (right; exact Hb2).
       split; reflexivity. }
  rewrite (convertToGray_run lib a b w1 src dst Ha Hb).
  rewrite (convertToGray_run lib a b w2 src dst Ha2 Hb2).
  destruct (snd (cvtColor lib src dst COLOR_RGBA2GRAY)) as [[what | what] |];
    (split; [reflexivity |]); unfold logged_error, converted;
    cbn [final_world heap fmap option_fmap option_map]; f_equal;
    now rewrite !lookup_insert_eq.
Qed.

Lemma convertToGray_local_witness :
  returned (convertToGray Instances.documented 16 32 Instances.w0)
  = returned (convertToGray Instances.documented 16 32 crowded)
  /\ (fun w' => heap w' !! 32)
       <$> final_world (convertToGray Instances.documented 16 32 Instances.w0)
     = (fun w' => heap w' !! 32)
       <$> final_world (convertToGray Instances.documented 16 32 crowded).
Proof.
  apply (convertToGray_local Instances.documented 16 32 Instances.w0 crowded);
    reflexivity.
Defined.

(** X4.  The two entry points do not interfere.  A conversion followed by a
    version query and a version query followed by a conversion give the
    caller the same pair of answers (or none, in the same cases) and leave
    the same matrices at every address. *)
Theorem entry_points_commute (lib : OpenCV) (a b : Z) (w : world) :
  returned (conversion_then_version lib a b w)
  = returned (version_then_conversion lib a b w)
  /\ heap <$> final_world (conversion_then_version lib a b w)
     = heap <$> final_world (version_then_conversion lib a b w).
Proof.
  unfold conversion_then_version, version_then_conversion, bind, ret.
  rewrite (getOpenCVVersion_run lib w).
  set (wv := {| heap := heap w; trace := _ |}).
  destruct (heap w !! a) as [src |] eqn:Ha.
  2: { rewrite (convertToGray_dangling lib a b w) by (left; exact Ha).
       rewrite (convertToGray_dangling lib a b wv) by (left; exact Ha).
       split; reflexivity. }
  destruct (heap w !! b) as [dst |] eqn:Hb.
  2: { rewrite (convertToGray_dangling lib a b w) by (right; exact Hb).
       rewrite (convertToGray_dangling lib a b wv) by (right; exact Hb).
       split; reflexivity. }
  rewrite (convertToGray_run lib a b w src dst Ha Hb).
  rewrite (convertToGray_run lib a b wv src dst Ha Hb).
  destruct (snd (cvtColor lib src dst COLOR_RGBA2GRAY)) as [[what | what] |];
    rewrite ?getOpenCVVersion_run; split; reflexivity.
Qed.

(** X5.  A version string that holds a NUL character reaches neither the log
    nor the caller in full: [getOpenCVVersion] shows and returns the part
    before the first NUL, and drops the NUL and what follows it.  With a NUL
    in first place the caller receives the empty string. *)
Theorem getOpenCVVersion_stops_at_NUL (lib : OpenCV) (w : world) (pre post : string) :
  getVersionString lib = pre +:+ String Ascii.zero post ->
  NUL_free pre = true ->
  exists w',
    getOpenCVVersion lib w = Returned (JString pre) w' /\
    logged_at ANDROID_LOG_INFO (trace w')
      = logged_at ANDROID_LOG_INFO (trace w)
        ++ ["Getting OpenCV version"; "OpenCV version: " +:+ pre] /\
    heap w' = heap w.
Proof.
  intros Hversion Hpre.
  rewrite getOpenCVVersion_run, Hversion, (c_str_stops_at_NUL pre post Hpre).
  eexists. split; [reflexivity |]. cbn [trace heap].
  split; [| reflexivity]. rewrite logged_at_app. reflexivity.
Qed.

Lemma getOpenCVVersion_stops_at_NUL_witness :
  exists w',
    getOpenCVVersion suffixed Instances.w0 = Returned (JString "4.8") w' /\
    logged_at ANDROID_LOG_INFO (trace w')
      = logged_at ANDROID_LOG_INFO (trace Instances.w0)
        ++ ["Getting OpenCV version"; "OpenCV version: " +:+ "4.8"] /\
    heap w' = heap Instances.w0.
Proof.
  apply (getOpenCVVersion_stops_at_NUL suffixed Instances.w0 "4.8" "rc");
    reflexivity.
Defined.
